(** * Sentry MCP client: the OAuth provider and the two HTTP handlers

    A shallow embedding of [src/index.ts]: the in-memory
    [SimpleOAuthProvider], [createMcpClient], and the routes
    [GET /oauth/callback] and [POST /api/connect].

    Conventions.
    - A JavaScript string is a [string]; a character stands for one code
      unit below 256.
    - An [async] function is a program of the monad [prog]: it threads
      the state it runs on, lists the effects it performs in the order
      they happen, and ends either resolved ([Returned]) or rejected
      ([Threw]).
    - The MCP SDK ([Client], [SSEClientTransport]) is not part of the
      repository. A call into it is a script ([sdk]) that may invoke
      the methods of the auth provider it was handed and then resolves
      or rejects; every statement quantifies over all such scripts.
    - The page served at [GET /] touches none of the state below and is
      left out. The patch of [fetch] is modelled over the function it
      wraps. *)

From Stdlib Require Import String Ascii List Bool ZArith Lia.
From ExtLib Require Import Structures.Monad Structures.MonadExc.
Import ListNotations.
Import MonadNotation.
Local Open Scope string_scope.
Local Open Scope monad_scope.
Set Warnings "-register-all".

(** ** JavaScript strings *)

Module JsString.

(** The characters [String.prototype.trim] removes (WhiteSpace and
    LineTerminator), among the code units below 256: TAB, LF, VT, FF,
    CR, SP and NBSP. *)
Definition isWhiteSpace (c : ascii) : bool :=
  let n := nat_of_ascii c in
  ((9 <=? n)%nat && (n <=? 13)%nat) || (n =? 32)%nat || (n =? 160)%nat.

(** [s.startsWith(p)] *)
Fixpoint startsWith (p s : string) : bool :=
  match p with
  | EmptyString => true
  | String a p' =>
      match s with
      | EmptyString => false
      | String b s' => Ascii.eqb a b && startsWith p' s'
      end
  end.

(** [s.substring(n)]: the string from index [n] to the end; the whole
    tail is empty when [n] is past the end. *)
Fixpoint substring (n : nat) (s : string) : string :=
  match n with
  | O => s
  | S n' =>
      match s with
      | EmptyString => EmptyString
      | String _ s' => substring n' s'
      end
  end.

Fixpoint trimStart (s : string) : string :=
  match s with
  | EmptyString => EmptyString
  | String c s' => if isWhiteSpace c then trimStart s' else s
  end.

Fixpoint trimEnd (s : string) : string :=
  match s with
  | EmptyString => EmptyString
  | String c s' =>
      match trimEnd s' with
      | EmptyString => if isWhiteSpace c then EmptyString else String c EmptyString
      | t => String c t
      end
  end.

(** [s.trim()] *)
Definition trim (s : string) : string := trimEnd (trimStart s).

(** [hay.includes(needle)] *)
Fixpoint includes (needle hay : string) : bool :=
  startsWith needle hay
  || match hay with
     | EmptyString => false
     | String _ hay' => includes needle hay'
     end.

(** [!s] for a string: only the empty string is falsy. *)
Definition falsy (s : string) : bool :=
  match s with
  | EmptyString => true
  | String _ _ => false
  end.

(** [lines.join("\n")] *)
Fixpoint unlines (ls : list string) : string :=
  match ls with
  | [] => EmptyString
  | [l] => l
  | l :: rest => l ++ String "010" (unlines rest)
  end.

End JsString.

(** ** Values *)

Inductive json : Type :=
| JNull
| JBool (b : bool)
| JNumber (n : Z)
| JString (s : string)
| JArray (items : list json)
| JObject (fields : list (string * json)).

(** [interface ClientInformationFull]: the two named fields of
    [ClientInformation], its index signature, and [client_secret]. *)
Record ClientInformationFull : Type := {
  client_id : string;
  redirect_uris : list string;
  client_secret : string;
  other_fields : list (string * json)
}.

(** [interface Tokens] *)
Record Tokens : Type := {
  access_token : string;
  token_type : string;
  expires_in : option Z;
  refresh_token : option string;
  scope : option string
}.

(** A [URL] object, seen through its serialization [href]. *)
Record URL : Type := { href : string }.

Definition URL_toString (u : URL) : string := href u.

(** What a [throw] carries: an [Error] with its message, or any other
    value. *)
Inductive thrown : Type :=
| JsError (message : string)
| NonError (v : json).

(** How an awaited call ends. *)
Inductive outcome (A : Type) : Type :=
| Returned (a : A)
| Threw (e : thrown).
Arguments Returned {A} a.
Arguments Threw {A} e.

(** ** Effects *)

Inductive logarg : Type :=
| LogString (s : string)
| LogClientInformation (info : ClientInformationFull)
| LogTools (ts : list json)
| LogThrown (e : thrown).

(** The observable effects: console output and the calls made into the
    SDK. No constructor stands for an HTTP redirect: the only HTTP
    output of the program is the response a handler returns. *)
Inductive event : Type :=
| ConsoleLog (args : list logarg)
| ConsoleError (args : list logarg)
| SdkConnect
| SdkFinishAuth (code : string)
| SdkListTools
| SdkClose.

Record result (S A : Type) : Type := mkResult {
  res : outcome A;
  final : S;
  emitted : list event
}.
Arguments mkResult {S A} res final emitted.
Arguments res {S A} r.
Arguments final {S A} r.
Arguments emitted {S A} r.

(** A program over a state of type [S]. *)
Definition prog (S A : Type) : Type := S -> result S A.

Definition prog_ret {S A} (a : A) : prog S A :=
  fun s => mkResult (Returned a) s [].

Definition prog_bind {S A B} (m : prog S A) (f : A -> prog S B) : prog S B :=
  fun s =>
    let r := m s in
    match res r with
    | Returned a =>
        let r' := f a (final r) in
        mkResult (res r') (final r') (emitted r ++ emitted r')
    | Threw e => mkResult (Threw e) (final r) (emitted r)
    end.

(** [throw e] *)
Definition prog_throw {S A} (e : thrown) : prog S A :=
  fun s => mkResult (Threw e) s [].

(** [try { m } catch (error) { h error }] *)
Definition prog_catch {S A} (m : prog S A) (h : thrown -> prog S A) : prog S A :=
  fun s =>
    let r := m s in
    match res r with
    | Returned a => r
    | Threw e =>
        let r' := h e (final r) in
        mkResult (res r') (final r') (emitted r ++ emitted r')
    end.

#[global] Instance Monad_prog (S : Type) : Monad (prog S) :=
  {| ret := @prog_ret S; bind := @prog_bind S |}.

#[global] Instance Exc_prog (S : Type) : MonadExc thrown (prog S) :=
  {| raise := @prog_throw S; catch := @prog_catch S |}.

Definition get_state {S} : prog S S :=
  fun s => mkResult (Returned s) s [].

Definition put_state {S} (s : S) : prog S unit :=
  fun _ => mkResult (Returned tt) s [].

Definition emit {S} (e : event) : prog S unit :=
  fun s => mkResult (Returned tt) s [e].

Definition console_log {S} (args : list logarg) : prog S unit :=
  emit (ConsoleLog args).

Definition console_error {S} (args : list logarg) : prog S unit :=
  emit (ConsoleError args).

(** ** The provider: [class SimpleOAuthProvider] *)

(** The value of the getter [clientMetadata]. *)
Record ClientMetadata : Type := {
  client_name : string;
  metadata_redirect_uris : list string;
  client_uri : string
}.

(** The fields of the class; an optional field that was never assigned
    is [None]. *)
Record SimpleOAuthProvider : Type := {
  clientInfo : option ClientInformationFull;
  oauthTokens : option Tokens;
  verifier : option string;
  baseUrl : string
}.

Module Provider.

Definition this := SimpleOAuthProvider.

(** [constructor(baseUrl)] *)
Definition new (baseUrl : string) : this :=
  {| clientInfo := None; oauthTokens := None; verifier := None;
     baseUrl := baseUrl |}.

Definition redirectUrl : prog this string :=
  self <- get_state ;;
  ret (baseUrl self ++ "/oauth/callback").

Definition clientMetadata : prog this ClientMetadata :=
  self <- get_state ;;
  url <- redirectUrl ;;
  ret {| client_name := "Sentry MCP Client";
         metadata_redirect_uris := [url];
         client_uri := baseUrl self |}.

Definition clientInformation : prog this (option ClientInformationFull) :=
  self <- get_state ;;
  ret (clientInfo self).

Definition saveClientInformation (clientInformation : ClientInformationFull)
  : prog this unit :=
  self <- get_state ;;
  put_state {| clientInfo := Some clientInformation;
               oauthTokens := oauthTokens self;
               verifier := verifier self;
               baseUrl := baseUrl self |} ;;
  console_log [LogString "Client information saved:";
               LogClientInformation clientInformation].

Definition tokens : prog this (option Tokens) :=
  self <- get_state ;;
  ret (oauthTokens self).

Definition saveTokens (tokens : Tokens) : prog this unit :=
  self <- get_state ;;
  put_state {| clientInfo := clientInfo self;
               oauthTokens := Some tokens;
               verifier := verifier self;
               baseUrl := baseUrl self |} ;;
  console_log [LogString "Tokens saved"].

Definition redirectToAuthorization (authorizationUrl : URL) : prog this unit :=
  raise (JsError ("Redirect to: " ++ URL_toString authorizationUrl)).

Definition saveCodeVerifier (codeVerifier : string) : prog this unit :=
  self <- get_state ;;
  put_state {| clientInfo := clientInfo self;
               oauthTokens := oauthTokens self;
               verifier := Some codeVerifier;
               baseUrl := baseUrl self |} ;;
  console_log [LogString "Code verifier saved"].

(** [!this.verifier] holds for [undefined] and for the empty string. *)
Definition codeVerifier : prog this string :=
  self <- get_state ;;
  match verifier self with
  | None => raise (JsError "No code verifier found")
  | Some v =>
      if JsString.falsy v then raise (JsError "No code verifier found")
      else ret v
  end.

End Provider.

(** ** The SDK as a collaborator *)

(** The members of [OAuthClientProvider] the SDK may use on the
    [authProvider] it is given. *)
Inductive method : Type -> Type :=
| m_redirectUrl : method string
| m_clientMetadata : method ClientMetadata
| m_clientInformation : method (option ClientInformationFull)
| m_saveClientInformation (info : ClientInformationFull) : method unit
| m_tokens : method (option Tokens)
| m_saveTokens (t : Tokens) : method unit
| m_redirectToAuthorization (authorizationUrl : URL) : method unit
| m_saveCodeVerifier (v : string) : method unit
| m_codeVerifier : method string.

Definition invoke {A} (m : method A) : prog Provider.this A :=
  match m in method T return prog Provider.this T with
  | m_redirectUrl => Provider.redirectUrl
  | m_clientMetadata => Provider.clientMetadata
  | m_clientInformation => Provider.clientInformation
  | m_saveClientInformation info => Provider.saveClientInformation info
  | m_tokens => Provider.tokens
  | m_saveTokens t => Provider.saveTokens t
  | m_redirectToAuthorization u => Provider.redirectToAuthorization u
  | m_saveCodeVerifier v => Provider.saveCodeVerifier v
  | m_codeVerifier => Provider.codeVerifier
  end.

(** One awaited SDK operation, as the provider sees it: the SDK calls
    provider methods, looks at how each call ended, and at some point
    resolves with a value or rejects. *)
Inductive sdk (R : Type) : Type :=
| Resolve (r : R)
| Reject (e : thrown)
| Call {A : Type} (m : method A) (k : outcome A -> sdk R).
Arguments Resolve {R} r.
Arguments Reject {R} e.
Arguments Call {R A} m k.

(** Runs [m] and hands back how it ended instead of propagating. *)
Definition settle {S A} (m : prog S A) : prog S (outcome A) :=
  fun s => let r := m s in mkResult (Returned (res r)) (final r) (emitted r).

Fixpoint run_sdk {R} (script : sdk R) : prog Provider.this R :=
  match script with
  | Resolve r => prog_ret r
  | Reject e => prog_throw e
  | Call m k => prog_bind (settle (invoke m)) (fun o => run_sdk (k o))
  end.

(** [client.listTools()] resolves with an object whose [tools] field is
    an array. *)
Record ListToolsResult : Type := { tools : list json }.

(** A transport and a client as the handlers use them. *)
Record SSEClientTransport : Type := {
  finishAuth : string -> sdk unit
}.

Record Client : Type := {
  connect : SSEClientTransport -> sdk unit;
  listTools : sdk ListToolsResult;
  close : sdk unit
}.

(** ** Module state and HTTP values *)

(** [let oauthProvider: SimpleOAuthProvider], [undefined] until first
    assigned. The variable is assigned only while it is [undefined], so
    the process creates at most one provider object, and every
    transport built from the variable refers to that one object: its
    fields are kept here. *)
Record Globals : Type := { oauthProvider : option SimpleOAuthProvider }.

Definition initial : Globals := {| oauthProvider := None |}.

(** Runs provider code on the object [oauthProvider] refers to. A
    method call on [undefined] is a [TypeError]. *)
Definition on_authProvider {A} (m : prog Provider.this A) : prog Globals A :=
  fun g =>
    match oauthProvider g with
    | Some p =>
        let r := m p in
        mkResult (res r) {| oauthProvider := Some (final r) |} (emitted r)
    | None =>
        mkResult (Threw (JsError "Cannot read properties of undefined")) g []
    end.

(** [await <sdk call>], with the transport's [authProvider] being
    [oauthProvider]. *)
Definition await {R} (call : event) (script : sdk R) : prog Globals R :=
  emit call ;; on_authProvider (run_sdk script).

Record Request : Type := {
  url_protocol : string;
  url_host : string;
  url_query : list (string * string)
}.

(** [c.req.query(key)] *)
Fixpoint query (key : string) (params : list (string * string)) : option string :=
  match params with
  | [] => None
  | (k, v) :: rest => if String.eqb k key then Some v else query key rest
  end.

Inductive Body : Type :=
| JsonBody (j : json)
| HtmlBody (markup : string).

Record Response : Type := { status : Z; body : Body }.

(** [c.json(value)] and [c.json(value, status)] *)
Definition c_json (value : json) (st : option Z) : Response :=
  {| status := match st with Some n => n | None => 200%Z end;
     body := JsonBody value |}.

(** [c.html(markup)] *)
Definition c_html (markup : string) : Response :=
  {| status := 200%Z; body := HtmlBody markup |}.

(** The escaping [hono/html] applies to a string interpolated into an
    [html] template. *)
Fixpoint escapeHtml (s : string) : string :=
  match s with
  | EmptyString => EmptyString
  | String c s' =>
      (if Ascii.eqb c "034" then "&quot;"
       else if Ascii.eqb c "039" then "&#39;"
       else if Ascii.eqb c "&" then "&amp;"
       else if Ascii.eqb c "<" then "&lt;"
       else if Ascii.eqb c ">" then "&gt;"
       else String c EmptyString) ++ escapeHtml s'
  end.

Definition dquote : string := String "034" EmptyString.

Definition no_code_page : string :=
  JsString.unlines [
    "";
    "      <html>";
    "        <body>";
    "          <h1>Authentication Error</h1>";
    "          <p>No authorization code provided.</p>";
    "        </body>";
    "      </html>";
    "    "].

Definition success_page : string :=
  JsString.unlines [
    "";
    "      <html>";
    "        <body>";
    "          <h1>Authentication Successful</h1>";
    "          <p>You have successfully authenticated with the Sentry MCP server.</p>";
    "          <p><a href=" ++ dquote ++ "/" ++ dquote ++ ">Return to the main page</a></p>";
    "          <script>";
    "            setTimeout(() => {";
    "              window.location.href = '/';";
    "            }, 3000);";
    "          </script>";
    "        </body>";
    "      </html>";
    "    "].

Definition failure_page (message : string) : string :=
  JsString.unlines [
    "";
    "      <html>";
    "        <body>";
    "          <h1>Authentication Error</h1>";
    "          <p>Failed to complete authentication: " ++ escapeHtml message ++ "</p>";
    "          <p><a href=" ++ dquote ++ "/" ++ dquote ++ ">Return to the main page</a></p>";
    "        </body>";
    "      </html>";
    "    "].

(** [error instanceof Error ? error.message : 'Unknown error'] *)
Definition message_of (error : thrown) : string :=
  match error with
  | JsError message => message
  | NonError _ => "Unknown error"
  end.

(** ** The handlers *)

Section Handlers.

(** What [new Client(...)] and [new SSEClientTransport(...)] evaluate
    to in the request at hand. *)
Variable new_Client : Client.
Variable new_SSEClientTransport : SSEClientTransport.

Definition base_url_of (request : Request) : string :=
  url_protocol request ++ "//" ++ url_host request.

Definition createMcpClient (request : Request) : prog Globals Client :=
  let baseUrl := base_url_of request in
  g <- get_state ;;
  match oauthProvider g with
  | None => put_state {| oauthProvider := Some (Provider.new baseUrl) |}
  | Some _ => ret tt
  end ;;
  let client := new_Client in
  let transport := new_SSEClientTransport in
  catch
    (await SdkConnect (connect client transport) ;;
     console_log [LogString "Connected to Sentry MCP server"] ;;
     ret client)
    (fun error =>
       console_error [LogString "Failed to connect to MCP server:";
                      LogThrown error] ;;
       raise error).

(** The [try] block of [app.get('/oauth/callback')]. *)
Definition oauth_callback_try (c : Request) (code : string)
  : prog Globals Response :=
  g <- get_state ;;
  match oauthProvider g with
  | None => raise (JsError "OAuth provider not initialized")
  | Some _ => ret tt
  end ;;
  let baseUrl := base_url_of c in
  g <- get_state ;;
  match oauthProvider g with
  | None => put_state {| oauthProvider := Some (Provider.new baseUrl) |}
  | Some _ => ret tt
  end ;;
  let client := new_Client in
  let transport := new_SSEClientTransport in
  await (SdkFinishAuth code) (finishAuth transport code) ;;
  await SdkConnect (connect client transport) ;;
  ret (c_html success_page).

Definition oauth_callback_catch (error : thrown) : prog Globals Response :=
  console_error [LogString "OAuth callback error:"; LogThrown error] ;;
  ret (c_html (failure_page (message_of error))).

(** [app.get('/oauth/callback', ...)]; [!code] holds when the parameter
    is missing and when it is empty. *)
Definition oauth_callback (c : Request) : prog Globals Response :=
  match query "code" (url_query c) with
  | None => ret (c_html no_code_page)
  | Some code =>
      if JsString.falsy code then ret (c_html no_code_page)
      else catch (oauth_callback_try c code) oauth_callback_catch
  end.

(** The [try] block of [app.post('/api/connect')]. *)
Definition api_connect_try (c : Request) : prog Globals Response :=
  client <- createMcpClient c ;;
  listed <- await SdkListTools (listTools client) ;;
  console_log [LogString "Available tools:"; LogTools (tools listed)] ;;
  await SdkClose (close client) ;;
  ret (c_json (JObject [("success", JBool true);
                        ("tools", JArray (tools listed))]) None).

Definition api_connect_catch (error : thrown) : prog Globals Response :=
  console_error [LogString "Connection error:"; LogThrown error] ;;
  let otherwise :=
    ret (c_json (JObject [("error", JString (message_of error))])
                (Some 500%Z)) in
  match error with
  | JsError message =>
      if JsString.startsWith "Redirect to:" message then
        let redirectUrl :=
          JsString.trim
            (JsString.substring (String.length "Redirect to:") message) in
        ret (c_json (JObject [("redirect", JString redirectUrl)]) None)
      else otherwise
  | NonError _ => otherwise
  end.

(** [app.post('/api/connect', ...)] *)
Definition api_connect (c : Request) : prog Globals Response :=
  catch (api_connect_try c) api_connect_catch.

End Handlers.

(** ** Sequences of provider calls *)

(** One call of a provider method, whatever its result type. *)
Definition call : Type := sigT method.

Definition call_of {A} (m : method A) : call := existT method A m.

(** The provider after the calls [cs], made in order; a call that
    throws leaves the provider as it found it and the next call goes
    ahead. *)
Fixpoint after (cs : list call) (p : Provider.this) : Provider.this :=
  match cs with
  | [] => p
  | c :: cs' => after cs' (final (invoke (projT2 c) p))
  end.

Definition saved_tokens (c : call) : option Tokens :=
  match projT2 c with
  | m_saveTokens t => Some t
  | _ => None
  end.

Definition saved_verifier (c : call) : option string :=
  match projT2 c with
  | m_saveCodeVerifier v => Some v
  | _ => None
  end.

Definition saved_registration (c : call) : option ClientInformationFull :=
  match projT2 c with
  | m_saveClientInformation info => Some info
  | _ => None
  end.

(** The argument of the last save among [cs], [None] when [cs] has no
    save. *)
Fixpoint last_saved {V} (saved : call -> option V) (cs : list call) : option V :=
  match cs with
  | [] => None
  | c :: cs' =>
      match last_saved saved cs' with
      | Some v => Some v
      | None => saved c
      end
  end.

(** [app.get('/oauth/callback')] with the second [if (!oauthProvider)]
    taken out, to compare with the handler as written. *)
Definition oauth_callback_one_check (new_Client : Client)
           (new_SSEClientTransport : SSEClientTransport) (c : Request)
  : prog Globals Response :=
  match query "code" (url_query c) with
  | None => ret (c_html no_code_page)
  | Some code =>
      if JsString.falsy code then ret (c_html no_code_page)
      else
        catch
          (g <- get_state ;;
           match oauthProvider g with
           | None => raise (JsError "OAuth provider not initialized")
           | Some _ => ret tt
           end ;;
           let client := new_Client in
           let transport := new_SSEClientTransport in
           await (SdkFinishAuth code) (finishAuth transport code) ;;
           await SdkConnect (connect client transport) ;;
           ret (c_html success_page))
          oauth_callback_catch
  end.

(** The failure the [catch] of [/api/connect] takes for the redirect
    signal. *)
Definition is_redirect_signal (error : thrown) : bool :=
  match error with
  | JsError message => JsString.startsWith "Redirect to:" message
  | NonError _ => false
  end.

Definition success_response (ts : list json) : Response :=
  {| status := 200%Z;
     body := JsonBody (JObject [("success", JBool true); ("tools", JArray ts)]) |}.

Definition redirect_response (target : string) : Response :=
  {| status := 200%Z;
     body := JsonBody (JObject [("redirect", JString target)]) |}.

Definition error_response (message : string) : Response :=
  {| status := 500%Z;
     body := JsonBody (JObject [("error", JString message)]) |}.

(** ** The process as a sequence of requests *)

Inductive route : Type :=
| GET_oauth_callback
| POST_api_connect.

(** A request to one of the two stateful routes, with the client and
    the transport its handler will construct. *)
Record incoming : Type := {
  to : route;
  request : Request;
  its_client : Client;
  its_transport : SSEClientTransport
}.

Definition handle (i : incoming) : prog Globals Response :=
  match to i with
  | GET_oauth_callback => oauth_callback (its_client i) (its_transport i) (request i)
  | POST_api_connect => api_connect (its_client i) (its_transport i) (request i)
  end.

(** The module state after the requests [history], served in order
    from [g]. *)
Fixpoint serve (history : list incoming) (g : Globals) : Globals :=
  match history with
  | [] => g
  | i :: rest => serve rest (final (handle i g))
  end.

Definition is_callback (i : incoming) : bool :=
  match to i with
  | GET_oauth_callback => true
  | POST_api_connect => false
  end.

Definition is_close (e : event) : bool :=
  match e with
  | SdkClose => true
  | _ => false
  end.

(** ** Sample collaborators and requests *)

Module Sample.

Definition authorize : URL :=
  {| href := "https://mcp.sentry.dev/oauth/authorize?response_type=code&client_id=c1" |}.

Definition registration : ClientInformationFull :=
  {| client_id := "c1";
     redirect_uris := ["https://client.example/oauth/callback"];
     client_secret := "s3cret";
     other_fields := [("client_name", JString "Sentry MCP Client")] |}.

Definition bearer : Tokens :=
  {| access_token := "at-1"; token_type := "Bearer";
     expires_in := Some 3600%Z; refresh_token := Some "rt-1";
     scope := None |}.

Definition tool_list : list json :=
  [JObject [("name", JString "list_organizations")];
   JObject [("name", JString "list_issues")]].

(** A transport in the manner of the SDK's: [finishAuth] asks for the
    verifier, fails as that call fails, and otherwise saves the tokens
    the exchange gave. *)
Definition transport : SSEClientTransport :=
  {| finishAuth := fun code =>
       Call m_codeVerifier (fun v =>
         match v with
         | Threw e => Reject e
         | Returned _ => Call (m_saveTokens bearer) (fun _ => Resolve tt)
         end) |}.

(** A client in the manner of the SDK's: [connect] goes ahead when the
    provider has tokens; without tokens it registers if need be, saves
    a verifier and asks for the redirect, failing as that call fails. *)
Definition client : Client :=
  {| connect := fun _ =>
       Call m_tokens (fun t =>
         match t with
         | Returned (Some _) => Resolve tt
         | _ =>
             Call m_clientInformation (fun info =>
               let authorize_now :=
                 Call (m_saveCodeVerifier "verifier-0123456789") (fun _ =>
                   Call (m_redirectToAuthorization authorize) (fun r =>
                     match r with
                     | Threw e => Reject e
                     | Returned _ => Resolve tt
                     end)) in
               match info with
               | Returned (Some _) => authorize_now
               | _ =>
                   Call (m_saveClientInformation registration)
                        (fun _ => authorize_now)
               end)
         end);
     listTools := Resolve {| tools := tool_list |};
     close := Resolve tt |}.

(** A client that connects, then fails to list the tools with an error
    of its own whose message begins like the redirect mark. *)
Definition misleading_client : Client :=
  {| connect := fun _ => Resolve tt;
     listTools := Reject (JsError "Redirect to: a replica failed");
     close := Resolve tt |}.

Definition connect_request : Request :=
  {| url_protocol := "https:"; url_host := "client.example"; url_query := [] |}.

Definition callback_request (params : list (string * string)) : Request :=
  {| url_protocol := "https:"; url_host := "client.example";
     url_query := params |}.

Definition post_connect : incoming :=
  {| to := POST_api_connect; request := connect_request;
     its_client := client; its_transport := transport |}.

Definition get_callback (params : list (string * string)) : incoming :=
  {| to := GET_oauth_callback; request := callback_request params;
     its_client := client; its_transport := transport |}.

End Sample.

(** ** The patch of [fetch] *)

(** A [RequestInit] as the patch sees it: the optional [cache] mode and
    the fields the patch does not look at. *)
Record RequestInit (F : Type) : Type := {
  cache : option string;
  other_init : F
}.
Arguments cache {F} r.
Arguments other_init {F} r.

(** [init && init.cache] *)
Definition init_has_cache {F} (init : option (RequestInit F)) : bool :=
  match init with
  | Some i =>
      match cache i with
      | Some mode => negb (JsString.falsy mode)
      | None => false
      end
  | None => false
  end.

(** [function patchedFetch(input, init)], over the [originalFetch] it
    wraps; [rest] is [init] without its [cache] property. *)
Definition patchedFetch {I F T}
           (originalFetch : I -> option (RequestInit F) -> T)
           (input : I) (init : option (RequestInit F)) : T :=
  match init with
  | Some i =>
      if init_has_cache init then
        let rest := {| cache := None; other_init := other_init i |} in
        originalFetch input (Some rest)
      else originalFetch input init
  | None => originalFetch input init
  end.

(** ** Reading a run *)

(** The calls into the SDK among the effects of a run, in order. *)
Definition is_sdk_call (e : event) : bool :=
  match e with
  | ConsoleLog _ | ConsoleError _ => false
  | SdkConnect | SdkFinishAuth _ | SdkListTools | SdkClose => true
  end.

Definition sdk_calls (es : list event) : list event := filter is_sdk_call es.

(** The request of the first [POST /api/connect] of a history. *)
Fixpoint first_connect (history : list incoming) : option Request :=
  match history with
  | [] => None
  | i :: rest =>
      match to i with
      | POST_api_connect => Some (request i)
      | GET_oauth_callback => first_connect rest
      end
  end.

(** The provider a handler's SDK calls work on: the one
    [oauthProvider] refers to, or the one [createMcpClient] constructs
    for the request when there is none. *)
Definition provider_for (c : Request) (g : Globals) : Provider.this :=
  match oauthProvider g with
  | Some p => p
  | None => Provider.new (base_url_of c)
  end.





(** A client whose [connect] rejects with an error of the network,
    and one whose [connect] rejects with a thrown string. *)
Module Failing.

Definition refused_client : Client :=
  {| connect := fun _ => Reject (JsError "connect ECONNREFUSED");
     listTools := Resolve {| tools := [] |};
     close := Resolve tt |}.

Definition string_throwing_client : Client :=
  {| connect := fun _ => Reject (NonError (JString "Redirect to: https://idp.example/"));
     listTools := Resolve {| tools := [] |};
     close := Resolve tt |}.

End Failing.

(** ** Facts about JavaScript strings *)

Section StringFacts.

Import JsString.

Lemma startsWith_app (p s : string) : startsWith p (p ++ s) = true.
Proof.
  induction p as [|a p IH]; simpl; [reflexivity|].
  rewrite Ascii.eqb_refl. exact IH.
Qed.

Lemma substring_length_app (p s : string) :
  substring (String.length p) (p ++ s) = s.
Proof. induction p as [|a p IH]; simpl; [reflexivity | exact IH]. Qed.

Lemma trimStart_space (s : string) : trimStart (String " " s) = trimStart s.
Proof. reflexivity. Qed.

Lemma trim_space (s : string) : trim (String " " s) = trim s.
Proof. reflexivity. Qed.

End StringFacts.

(** ** The provider *)

Section ProviderFacts.

Implicit Types (p : Provider.this) (cs : list call).

Lemma after_app cs1 cs2 p : after (cs1 ++ cs2) p = after cs2 (after cs1 p).
Proof.
  revert p. induction cs1 as [|c cs1 IH]; intros p; simpl; [reflexivity|].
  apply IH.
Qed.

Lemma codeVerifier_final p : final (Provider.codeVerifier p) = p.
Proof.
  unfold Provider.codeVerifier. cbn.
  destruct (verifier p) as [v|]; [destruct v|]; reflexivity.
Qed.

(** Only the constructor sets [baseUrl]. *)
Lemma invoke_baseUrl {A} (m : method A) p :
  baseUrl (final (invoke m p)) = baseUrl p.
Proof.
  destruct m; try reflexivity.
  cbn [invoke]. now rewrite codeVerifier_final.
Qed.

Lemma invoke_oauthTokens (c : call) p :
  oauthTokens (final (invoke (projT2 c) p)) =
  match saved_tokens c with Some t => Some t | None => oauthTokens p end.
Proof.
  destruct c as [A m]; destruct m; try reflexivity.
  cbn [projT2 invoke]. now rewrite codeVerifier_final.
Qed.

Lemma invoke_verifier (c : call) p :
  verifier (final (invoke (projT2 c) p)) =
  match saved_verifier c with Some v => Some v | None => verifier p end.
Proof.
  destruct c as [A m]; destruct m; try reflexivity.
  cbn [projT2 invoke]. now rewrite codeVerifier_final.
Qed.

Lemma invoke_clientInfo (c : call) p :
  clientInfo (final (invoke (projT2 c) p)) =
  match saved_registration c with Some r => Some r | None => clientInfo p end.
Proof.
  destruct c as [A m]; destruct m; try reflexivity.
  cbn [projT2 invoke]. now rewrite codeVerifier_final.
Qed.

(** A field that each call either overwrites with what it saves or
    leaves alone holds, after [cs], the last value saved. *)
Lemma after_field {V} (field : Provider.this -> option V)
      (saved : call -> option V) :
  (forall c p, field (final (invoke (projT2 c) p)) =
               match saved c with Some v => Some v | None => field p end) ->
  forall cs p,
    field (after cs p) =
    match last_saved saved cs with Some v => Some v | None => field p end.
Proof.
  intros Hstep cs. induction cs as [|c cs IH]; intros p; simpl; [reflexivity|].
  rewrite IH, Hstep.
  destruct (last_saved saved cs); [reflexivity|].
  destruct (saved c); reflexivity.
Qed.

End ProviderFacts.

(** C1. For every URL [u] and provider state [p],
    [redirectToAuthorization(u)] does not return: it throws an [Error]
    whose message starts with the mark [Redirect to:] and carries the
    serialization of [u] verbatim after the 13-character prefix. It
    leaves every field of the provider as it was and performs no
    effect, in particular no call that could answer the HTTP request. *)
Theorem redirectToAuthorization_signals (u : URL) (p : Provider.this) :
  let r := Provider.redirectToAuthorization u p in
  (exists message,
      res r = Threw (JsError message) /\
      JsString.startsWith "Redirect to:" message = true /\
      JsString.substring 13 message = URL_toString u) /\
  final r = p /\
  emitted r = [].
Proof.
  cbv zeta. split; [|split; reflexivity].
  exists ("Redirect to: " ++ URL_toString u).
  split; [reflexivity|]. split.
  - exact (startsWith_app "Redirect to:" (String " " (URL_toString u))).
  - exact (substring_length_app "Redirect to: " (URL_toString u)).
Qed.

(** C5. After any sequence of provider calls on a freshly constructed
    provider, [tokens()] returns the token pair of the last
    [saveTokens] of the sequence, and [undefined] when the sequence has
    none; it changes nothing and logs nothing. *)
Theorem tokens_last_write_wins (base : string) (cs : list call) :
  Provider.tokens (after cs (Provider.new base)) =
  mkResult (Returned (last_saved saved_tokens cs))
           (after cs (Provider.new base)) [].
Proof.
  unfold Provider.tokens. cbn.
  rewrite (after_field oauthTokens saved_tokens invoke_oauthTokens).
  destruct (last_saved saved_tokens cs); reflexivity.
Qed.

(** C7. Whatever the provider held, [saveClientInformation(r)]
    followed by [clientInformation()] returns [r] itself, hence a value
    equal to [r] in every field. *)
Theorem clientInformation_roundtrip (r : ClientInformationFull)
        (p : Provider.this) :
  res (Provider.clientInformation
         (final (Provider.saveClientInformation r p))) = Returned (Some r).
Proof. reflexivity. Qed.

(** ** Running programs *)

Section ProgFacts.

Context {S A B : Type}.

Lemma res_bind (m : prog S A) (f : A -> prog S B) (s : S) :
  res (bind m f s) =
  match res (m s) with
  | Returned a => res (f a (final (m s)))
  | Threw e => Threw e
  end.
Proof. cbn. unfold prog_bind. destruct (res (m s)); reflexivity. Qed.

Lemma emitted_bind (m : prog S A) (f : A -> prog S B) (s : S) :
  emitted (bind m f s) =
  (emitted (m s) ++
   match res (m s) with
   | Returned a => emitted (f a (final (m s)))
   | Threw e => []
   end)%list.
Proof.
  cbn. unfold prog_bind. destruct (res (m s)); cbn; [reflexivity|].
  now rewrite app_nil_r.
Qed.

Lemma final_bind (m : prog S A) (f : A -> prog S B) (s : S) :
  final (bind m f s) =
  match res (m s) with
  | Returned a => final (f a (final (m s)))
  | Threw e => final (m s)
  end.
Proof. cbn. unfold prog_bind. destruct (res (m s)); reflexivity. Qed.

Lemma res_catch (m : prog S A) (h : thrown -> prog S A) (s : S) :
  res (catch m h s) =
  match res (m s) with
  | Returned a => Returned a
  | Threw e => res (h e (final (m s)))
  end.
Proof. cbn. unfold prog_catch. destruct (res (m s)) eqn:E; [exact E | reflexivity]. Qed.

Lemma emitted_catch (m : prog S A) (h : thrown -> prog S A) (s : S) :
  emitted (catch m h s) =
  (emitted (m s) ++
   match res (m s) with
   | Returned a => []
   | Threw e => emitted (h e (final (m s)))
   end)%list.
Proof.
  cbn. unfold prog_catch. destruct (res (m s)); cbn; [|reflexivity].
  now rewrite app_nil_r.
Qed.

End ProgFacts.

(** ** What SDK scripts can and cannot do *)

Section SdkFacts.

Lemma invoke_no_close {A} (m : method A) (p : Provider.this) :
  existsb is_close (emitted (invoke m p)) = false.
Proof.
  destruct m; try reflexivity.
  cbn [invoke]. unfold Provider.codeVerifier. cbn.
  destruct (verifier p) as [v|]; [destruct v|]; reflexivity.
Qed.

(** A script reaches the outside only through the provider, and the
    provider only writes to the console. *)
Lemma run_sdk_no_close {R} (script : sdk R) :
  forall p, existsb is_close (emitted (run_sdk script p)) = false.
Proof.
  induction script as [r|e|A m k IH]; intros p; try reflexivity.
  cbn [run_sdk]. unfold prog_bind, settle. cbn.
  rewrite existsb_app, invoke_no_close, IH. reflexivity.
Qed.

Lemma await_no_close {R} (ev : event) (script : sdk R) (g : Globals) :
  is_close ev = false ->
  existsb is_close (emitted (await ev script g)) = false.
Proof.
  intros Hev. unfold await. rewrite emitted_bind. cbn.
  rewrite Hev. unfold on_authProvider.
  destruct (oauthProvider g) as [p|]; cbn; [|reflexivity].
  apply run_sdk_no_close.
Qed.

Lemma await_keeps_provider {R} (ev : event) (script : sdk R) (g : Globals) :
  oauthProvider g <> None ->
  oauthProvider (final (await ev script g)) <> None.
Proof.
  intros Hg. unfold await. rewrite final_bind. cbn.
  unfold on_authProvider. destruct (oauthProvider g); [|contradiction].
  cbn. destruct (res (run_sdk script s)); cbn; discriminate.
Qed.

End SdkFacts.

(** ** [POST /api/connect] *)

Section ApiConnect.

Variables (client : Client) (transport : SSEClientTransport).
Variables (c : Request) (g : Globals).

(** When the [try] block completes, its value is the success object. *)
Lemma api_connect_try_returned (resp : Response) :
  res (api_connect_try client transport c g) = Returned resp ->
  exists ts, resp = success_response ts.
Proof.
  unfold api_connect_try. rewrite res_bind.
  destruct (res (createMcpClient client transport c g)) as [cl|]; [|discriminate].
  rewrite res_bind.
  match goal with |- context [res (await ?e ?s ?w)] =>
    destruct (res (await e s w)) as [listed|] end; [|discriminate].
  rewrite res_bind. cbn [console_log emit res final].
  rewrite res_bind.
  match goal with |- context [res (await ?e ?s ?w)] =>
    destruct (res (await e s w)) end; [|discriminate].
  cbn. intros [= <-]. now exists (tools listed).
Qed.

(** The [catch] block answers by the message alone. *)
Lemma api_connect_catch_res (error : thrown) (w : Globals) :
  res (api_connect_catch error w) =
  Returned
    (if is_redirect_signal error
     then redirect_response
            (JsString.trim (JsString.substring 12 (message_of error)))
     else error_response (message_of error)).
Proof.
  unfold api_connect_catch. rewrite res_bind. cbn [console_error emit res final].
  destruct error as [message|v]; cbn [is_redirect_signal message_of]; [|reflexivity].
  destruct (JsString.startsWith "Redirect to:" message); reflexivity.
Qed.

Lemma api_connect_res :
  res (api_connect client transport c g) =
  match res (api_connect_try client transport c g) with
  | Returned resp => Returned resp
  | Threw error =>
      Returned
        (if is_redirect_signal error
         then redirect_response
                (JsString.trim (JsString.substring 12 (message_of error)))
         else error_response (message_of error))
  end.
Proof.
  unfold api_connect. rewrite res_catch.
  destruct (res (api_connect_try client transport c g)); [reflexivity|].
  apply api_connect_catch_res.
Qed.

End ApiConnect.

(** C3. For every request, module state and SDK behaviour, the handler
    of [POST /api/connect] resolves with a response, and that response
    is the success object with status 200 when the [try] block
    completes, the object with the single field [redirect] and status
    200 when it fails with the redirect signal, and the object with the
    single field [error] and status 500 on any other failure. *)
Theorem api_connect_three_shapes (client : Client)
        (transport : SSEClientTransport) (c : Request) (g : Globals) :
  exists resp,
    res (api_connect client transport c g) = Returned resp /\
    match res (api_connect_try client transport c g) with
    | Returned _ => exists ts, resp = success_response ts
    | Threw error =>
        if is_redirect_signal error
        then exists target, resp = redirect_response target
        else exists message,
            resp = error_response message /\
            ~ (200 <= status resp < 300)%Z
    end.
Proof.
  rewrite api_connect_res.
  destruct (res (api_connect_try client transport c g)) as [resp|error] eqn:Htry.
  - exists resp. split; [reflexivity|].
    exact (api_connect_try_returned client transport c g resp Htry).
  - eexists. split; [reflexivity|].
    destruct (is_redirect_signal error).
    + eexists. reflexivity.
    + eexists. split; [reflexivity|]. cbn. lia.
Qed.

(** C2. Let [u] be a URL whose serialization has no white space at
    either end, as every serialization of a [URL] object is. If the
    [try] block of [POST /api/connect] fails with the very error
    [redirectToAuthorization(u)] throws, the response is the JSON
    object whose [redirect] field is the serialization of [u], with
    status 200. *)
Theorem redirect_roundtrip (client : Client) (transport : SSEClientTransport)
        (c : Request) (g : Globals) (u : URL) (p : Provider.this)
        (error : thrown) :
  JsString.trim (URL_toString u) = URL_toString u ->
  res (Provider.redirectToAuthorization u p) = Threw error ->
  res (api_connect_try client transport c g) = Threw error ->
  res (api_connect client transport c g) =
  Returned {| status := 200%Z;
              body := JsonBody (JObject [("redirect", JString (URL_toString u))]) |}.
Proof.
  intros Htrim Hthrow Htry.
  change (@Threw unit (JsError ("Redirect to: " ++ URL_toString u)) = Threw error)
    in Hthrow.
  assert (Herr : JsError ("Redirect to: " ++ URL_toString u) = error)
    by congruence.
  clear Hthrow. subst error.
  rewrite api_connect_res, Htry.
  cbn [is_redirect_signal message_of].
  assert (Hmark : JsString.startsWith "Redirect to:"
                    ("Redirect to: " ++ URL_toString u) = true)
    by exact (startsWith_app "Redirect to:" (String " " (URL_toString u))).
  rewrite Hmark.
  change (JsString.substring 12 ("Redirect to: " ++ URL_toString u))
    with (String " " (URL_toString u)).
  rewrite trim_space, Htrim. reflexivity.
Qed.

Lemma redirect_roundtrip_witness :
  res (api_connect Sample.client Sample.transport Sample.connect_request initial) =
  Returned (redirect_response (URL_toString Sample.authorize)).
Proof.
  apply (redirect_roundtrip Sample.client Sample.transport
           Sample.connect_request initial Sample.authorize
           (Provider.new "https://client.example")
           (JsError ("Redirect to: " ++ URL_toString Sample.authorize)));
    reflexivity.
Defined.

(** C9. Whatever raised it, an [Error] whose message starts with
    [Redirect to:] and that fails the [try] block of
    [POST /api/connect] is answered with status 200 and the single field
    [redirect], holding the rest of the message trimmed; the answer is
    a function of the message alone. *)
Theorem api_connect_classifies_by_prefix (client : Client)
        (transport : SSEClientTransport) (c : Request) (g : Globals)
        (message : string) :
  res (api_connect_try client transport c g) = Threw (JsError message) ->
  JsString.startsWith "Redirect to:" message = true ->
  res (api_connect client transport c g) =
  Returned
    (redirect_response
       (JsString.trim
          (JsString.substring (String.length "Redirect to:") message))).
Proof.
  intros Htry Hprefix. rewrite api_connect_res, Htry.
  cbn [is_redirect_signal message_of]. rewrite Hprefix. reflexivity.
Qed.

Lemma api_connect_classifies_by_prefix_witness :
  res (api_connect Sample.misleading_client Sample.transport
         Sample.connect_request initial) =
  Returned (redirect_response "a replica failed").
Proof.
  apply (api_connect_classifies_by_prefix Sample.misleading_client
           Sample.transport Sample.connect_request initial
           "Redirect to: a replica failed");
    reflexivity.
Defined.

(** ** [GET /oauth/callback] *)

Section OauthCallback.

Variables (client : Client) (transport : SSEClientTransport).

Lemma oauth_callback_without_provider (c : Request) (g : Globals) (code : string) :
  oauthProvider g = None ->
  query "code" (url_query c) = Some code ->
  JsString.falsy code = false ->
  oauth_callback client transport c g =
  mkResult
    (Returned (c_html (failure_page "OAuth provider not initialized")))
    g
    [ConsoleError [LogString "OAuth callback error:";
                   LogThrown (JsError "OAuth provider not initialized")]].
Proof.
  intros Hg Hq Hcode. unfold oauth_callback. rewrite Hq, Hcode.
  unfold oauth_callback_try. cbn. unfold prog_catch, prog_bind. cbn.
  rewrite Hg. reflexivity.
Qed.

(** The second test of [oauthProvider] never finds it [undefined]: the
    handler behaves as the one written without that test. *)
Lemma oauth_callback_second_check_dead (c : Request) (g : Globals) :
  oauth_callback client transport c g =
  oauth_callback_one_check client transport c g.
Proof.
  unfold oauth_callback, oauth_callback_one_check.
  destruct (query "code" (url_query c)) as [code|]; [|reflexivity].
  destruct (JsString.falsy code); [reflexivity|].
  unfold oauth_callback_try. cbn. unfold prog_catch, prog_bind. cbn.
  destruct (oauthProvider g) as [p|] eqn:Hg; cbn; [|reflexivity].
  rewrite Hg. reflexivity.
Qed.

(** A callback neither creates nor drops the provider object. *)
Lemma oauth_callback_provider_defined (c : Request) (g : Globals) :
  oauthProvider (final (oauth_callback client transport c g)) = None <->
  oauthProvider g = None.
Proof.
  rewrite oauth_callback_second_check_dead. unfold oauth_callback_one_check.
  destruct (query "code" (url_query c)) as [code|]; [|reflexivity].
  destruct (JsString.falsy code); [reflexivity|].
  cbn. unfold prog_catch, prog_bind. cbn.
  destruct (oauthProvider g) as [p|] eqn:Hg; cbn; [|now rewrite Hg].
  unfold on_authProvider. rewrite Hg. cbn.
  destruct (res (run_sdk (finishAuth transport code) p)); cbn;
    [|split; discriminate].
  destruct (res (run_sdk (connect client transport) _)); cbn;
    split; discriminate.
Qed.

(** The handler has no path on which the client is closed. *)
Lemma oauth_callback_no_close (c : Request) (g : Globals) :
  existsb is_close (emitted (oauth_callback client transport c g)) = false.
Proof.
  rewrite oauth_callback_second_check_dead. unfold oauth_callback_one_check.
  destruct (query "code" (url_query c)) as [code|]; [|reflexivity].
  destruct (JsString.falsy code); [reflexivity|].
  rewrite emitted_catch, existsb_app.
  apply orb_false_iff. split.
  - rewrite emitted_bind, existsb_app. cbn [get_state emitted res final existsb orb].
    rewrite emitted_bind, existsb_app.
    destruct (oauthProvider g); cbn [ret raise Monad_prog Exc_prog prog_ret
      prog_throw emitted res final existsb orb]; [|reflexivity].
    rewrite emitted_bind, existsb_app, await_no_close by reflexivity.
    cbn [orb].
    destruct (res (await _ _ _)); [|reflexivity].
    rewrite emitted_bind, existsb_app, await_no_close by reflexivity.
    destruct (res (await _ _ _)); reflexivity.
  - destruct (res _); reflexivity.
Qed.

End OauthCallback.

(** Until [POST /api/connect] runs, [oauthProvider] stays [undefined]. *)
Lemma serve_callbacks_only (history : list incoming) (g : Globals) :
  forallb is_callback history = true ->
  oauthProvider g = None ->
  oauthProvider (serve history g) = None.
Proof.
  revert g. induction history as [|i rest IH]; intros g Hall Hg; [exact Hg|].
  cbn [forallb] in Hall. apply andb_true_iff in Hall as [Hi Hrest].
  cbn [serve]. apply IH; [exact Hrest|].
  unfold handle. unfold is_callback in Hi.
  destruct (to i); [|discriminate].
  now apply oauth_callback_provider_defined.
Qed.

(** On the sibling route the client is closed before the success
    object is returned. *)
Lemma api_connect_closes (client : Client) (transport : SSEClientTransport)
      (c : Request) (g : Globals) (resp : Response) :
  res (api_connect_try client transport c g) = Returned resp ->
  existsb is_close (emitted (api_connect client transport c g)) = true.
Proof.
  unfold api_connect. rewrite emitted_catch, existsb_app.
  unfold api_connect_try. rewrite res_bind, emitted_bind, existsb_app.
  destruct (res (createMcpClient client transport c g)) as [cl|]; [|discriminate].
  rewrite res_bind, emitted_bind, existsb_app.
  match goal with |- context [res (await ?e ?s ?w)] =>
    destruct (res (await e s w)) as [listed|] end; [|discriminate].
  rewrite res_bind, emitted_bind, existsb_app.
  cbn [console_log emit res final emitted].
  rewrite res_bind, emitted_bind, existsb_app.
  intros _. unfold await at 1. rewrite emitted_bind. cbn [emit emitted existsb is_close].
  now rewrite !orb_true_r.
Qed.

(** C6. The handler of [GET /oauth/callback] never calls
    [client.close()], whatever the request, the module state and the
    SDK do; in particular a callback whose exchange and connection both
    succeed answers with the success page and leaves the connection it
    opened unclosed. *)
Theorem oauth_callback_leaves_connection_open :
  (forall client transport c g,
      existsb is_close (emitted (oauth_callback client transport c g)) = false) /\
  let r := handle (Sample.get_callback [("code", "abc123")])
                  (serve [Sample.post_connect] initial) in
  res r = Returned (c_html success_page) /\
  emitted r = [SdkFinishAuth "abc123";
               ConsoleLog [LogString "Tokens saved"];
               SdkConnect].
Proof.
  split; [exact oauth_callback_no_close|].
  split; reflexivity.
Qed.

(** C8. A callback whose query has no [code] parameter is answered with
    the page that reads [No authorization code provided.]; the handler
    makes no call into the SDK, writes nothing, and leaves the module
    state, hence every store, as it was. *)
Theorem oauth_callback_missing_code (client : Client)
        (transport : SSEClientTransport) (c : Request) (g : Globals) :
  query "code" (url_query c) = None ->
  oauth_callback client transport c g =
    mkResult (Returned (c_html no_code_page)) g [] /\
  JsString.includes "No authorization code provided." no_code_page = true.
Proof.
  intros Hq. unfold oauth_callback. rewrite Hq. split; reflexivity.
Qed.

Lemma oauth_callback_missing_code_witness :
  let g := serve [Sample.post_connect] initial in
  oauth_callback Sample.client Sample.transport
    (Sample.callback_request [("state", "xyz")]) g =
    mkResult (Returned (c_html no_code_page)) g [] /\
  JsString.includes "No authorization code provided." no_code_page = true.
Proof.
  apply (oauth_callback_missing_code Sample.client Sample.transport
           (Sample.callback_request [("state", "xyz")])
           (serve [Sample.post_connect] initial)).
  reflexivity.
Defined.

(** C10. In a process that has served callbacks only, a callback with a
    non-empty [code] makes no call into the SDK: it logs the error,
    leaves [oauthProvider] undefined and answers with the failure page
    reading [Failed to complete authentication: OAuth provider not
    initialized]. And for every request and module state the handler
    behaves as if its second test of [oauthProvider] were not there. *)
Theorem oauth_callback_before_connect (history : list incoming)
        (client : Client) (transport : SSEClientTransport) (c : Request)
        (code : string) :
  forallb is_callback history = true ->
  query "code" (url_query c) = Some code ->
  JsString.falsy code = false ->
  let g := serve history initial in
  oauth_callback client transport c g =
    mkResult
      (Returned (c_html (failure_page "OAuth provider not initialized")))
      g
      [ConsoleError [LogString "OAuth callback error:";
                     LogThrown (JsError "OAuth provider not initialized")]] /\
  JsString.includes
    "Failed to complete authentication: OAuth provider not initialized"
    (failure_page "OAuth provider not initialized") = true /\
  (forall c' g',
      oauth_callback client transport c' g' =
      oauth_callback_one_check client transport c' g').
Proof.
  intros Hhist Hq Hcode g. split; [|split].
  - apply oauth_callback_without_provider with (code := code);
      [|exact Hq|exact Hcode].
    now apply serve_callbacks_only.
  - reflexivity.
  - apply oauth_callback_second_check_dead.
Qed.

Lemma oauth_callback_before_connect_witness :
  res (oauth_callback Sample.client Sample.transport
         (Sample.callback_request [("code", "abc123")])
         (serve [Sample.get_callback []; Sample.get_callback [("code", "zzz")]]
                initial)) =
  Returned (c_html (failure_page "OAuth provider not initialized")).
Proof.
  refine (f_equal res
            (proj1 (oauth_callback_before_connect
                      [Sample.get_callback [];
                       Sample.get_callback [("code", "zzz")]]
                      Sample.client Sample.transport
                      (Sample.callback_request [("code", "abc123")])
                      "abc123" _ _ _)));
    reflexivity.
Defined.

(** C4 as stated fails: here a verifier was saved, and [codeVerifier()]
    still throws, because the verifier saved is the empty string. *)
Lemma codeVerifier_empty_verifier :
  let cs := [call_of (m_saveCodeVerifier "")] in
  ~ (res (Provider.codeVerifier
            (after cs (Provider.new "https://client.example"))) =
     Threw (JsError "No code verifier found") <->
     last_saved saved_verifier cs = None).
Proof. intros cs [Hfails _]. specialize (Hfails eq_refl). discriminate. Qed.

(** C4, amended. After any sequence of provider calls on a freshly
    constructed provider, [codeVerifier()] throws the error [No code
    verifier found] exactly when the sequence has no [saveCodeVerifier]
    or the last one saved the empty string; in every other case it
    returns the verifier saved last. It changes nothing and logs
    nothing. *)
Theorem codeVerifier_last_saved (base : string) (cs : list call) :
  Provider.codeVerifier (after cs (Provider.new base)) =
  mkResult
    (match last_saved saved_verifier cs with
     | None => Threw (JsError "No code verifier found")
     | Some v =>
         if JsString.falsy v then Threw (JsError "No code verifier found")
         else Returned v
     end)
    (after cs (Provider.new base)) [].
Proof.
  unfold Provider.codeVerifier. cbn.
  rewrite (after_field verifier saved_verifier invoke_verifier).
  destruct (last_saved saved_verifier cs) as [v|]; [|reflexivity].
  destruct v; reflexivity.
Qed.

(** ** Scenarios *)

(** No prior state: the first [POST /api/connect] answers with the
    redirect instruction, status 200. *)
Example first_connect_redirects :
  res (handle Sample.post_connect initial) =
  Returned (redirect_response (URL_toString Sample.authorize)).
Proof. reflexivity. Qed.

(** A callback with a code while no verifier was ever saved. *)
Example callback_without_verifier :
  let g := {| oauthProvider := Some (Provider.new "https://client.example") |} in
  res (handle (Sample.get_callback [("code", "abc123")]) g) =
  Returned (c_html (failure_page "No code verifier found")).
Proof. reflexivity. Qed.

(** Connect, callback with a code, connect again: tokens are stored and
    the second connect lists the tools. *)
Example full_flow :
  let g := serve [Sample.post_connect;
                  Sample.get_callback [("code", "abc123")]] initial in
  option_map oauthTokens (oauthProvider g) = Some (Some Sample.bearer) /\
  res (handle Sample.post_connect g) =
  Returned (success_response Sample.tool_list).
Proof. split; reflexivity. Qed.

(** An empty [code] parameter is treated as a missing one. *)
Example callback_empty_code :
  handle (Sample.get_callback [("code", "")]) initial =
  mkResult (Returned (c_html no_code_page)) initial [].
Proof. reflexivity. Qed.

(** ** The patch of [fetch] *)

(** X1. [patchedFetch] calls the wrapped [fetch] exactly with the
    caller's [input] and with an [init] that has no truthy [cache]; the
    other fields of [init] are those the caller gave, [init] stays
    absent when it was absent, and an [init] without a truthy [cache]
    is handed over as it is. *)
Theorem patchedFetch_strips_cache {I F : Type} (input : I)
        (init : option (RequestInit F)) :
  exists init',
    (forall (T : Type) (originalFetch : I -> option (RequestInit F) -> T),
        patchedFetch originalFetch input init = originalFetch input init') /\
    init_has_cache init' = false /\
    option_map other_init init' = option_map other_init init /\
    (init_has_cache init = true \/ init' = init).
Proof.
  destruct init as [i|].
  - destruct (init_has_cache (Some i)) eqn:Hc.
    + exists (Some {| cache := None; other_init := other_init i |}).
      split; [|split; [reflexivity | split; [reflexivity | now left]]].
      intros T f. unfold patchedFetch. now rewrite Hc.
    + exists (Some i).
      split; [|split; [exact Hc | split; [reflexivity | now right]]].
      intros T f. unfold patchedFetch. now rewrite Hc.
  - exists None. repeat split; try reflexivity. now right.
Qed.

(** X12. Patching twice is patching once: the patch applied to an
    already patched [fetch] behaves as the patched [fetch]. *)
Theorem patchedFetch_idempotent {I F T : Type}
        (originalFetch : I -> option (RequestInit F) -> T) (input : I)
        (init : option (RequestInit F)) :
  patchedFetch (patchedFetch originalFetch) input init =
  patchedFetch originalFetch input init.
Proof.
  destruct init as [[[mode|] rest]|]; try reflexivity.
  destruct mode; reflexivity.
Qed.

(** ** The provider across calls *)

(** X2. No provider method changes the base URL: after any sequence of
    calls on a provider constructed with [base], [redirectUrl] is
    [base] followed by [/oauth/callback], and [clientMetadata] gives
    the fixed display name, that one redirect URI and [base] as client
    URI. *)
Theorem redirectUrl_fixed (base : string) (cs : list call) :
  let p := after cs (Provider.new base) in
  res (Provider.redirectUrl p) = Returned (base ++ "/oauth/callback") /\
  res (Provider.clientMetadata p) =
  Returned {| client_name := "Sentry MCP Client";
              metadata_redirect_uris := [base ++ "/oauth/callback"];
              client_uri := base |}.
Proof.
  cbv zeta.
  assert (Hbase : forall p, baseUrl (after cs p) = baseUrl p).
  { induction cs as [|c cs IH]; intros p; [reflexivity|].
    cbn [after]. rewrite IH. apply invoke_baseUrl. }
  unfold Provider.redirectUrl, Provider.clientMetadata. cbn.
  rewrite Hbase. split; reflexivity.
Qed.

(** X3. After any sequence of provider calls on a freshly constructed
    provider, [clientInformation()] returns the registration of the
    last [saveClientInformation] of the sequence, and [undefined] when
    there was none; it changes nothing and logs nothing. *)
Theorem clientInformation_last_saved (base : string) (cs : list call) :
  Provider.clientInformation (after cs (Provider.new base)) =
  mkResult (Returned (last_saved saved_registration cs))
           (after cs (Provider.new base)) [].
Proof.
  unfold Provider.clientInformation. cbn.
  rewrite (after_field clientInfo saved_registration invoke_clientInfo).
  destruct (last_saved saved_registration cs); reflexivity.
Qed.

(** ** Handlers in terms of the SDK scripts they run *)

Section Runs.

Variables (client : Client) (transport : SSEClientTransport).

Lemma await_run {R} (ev : event) (script : sdk R) (g : Globals)
      (p : Provider.this) :
  oauthProvider g = Some p ->
  await ev script g =
  mkResult (res (run_sdk script p))
           {| oauthProvider := Some (final (run_sdk script p)) |}
           (ev :: emitted (run_sdk script p)).
Proof.
  intros Hg. unfold await. cbn. unfold prog_bind, on_authProvider. cbn.
  rewrite Hg. destruct (res (run_sdk script p)) eqn:Hr; cbn; now rewrite ?Hr.
Qed.

Lemma prog_bind_run {S A B} (m : prog S A) (f : A -> prog S B) (s : S)
      (r : result S A) :
  m s = r ->
  prog_bind m f s =
  match res r with
  | Returned a =>
      mkResult (res (f a (final r))) (final (f a (final r)))
               (emitted r ++ emitted (f a (final r)))
  | Threw e => mkResult (Threw e) (final r) (emitted r)
  end.
Proof. intros <-. reflexivity. Qed.

Lemma invoke_console_only {A} (m : method A) (p : Provider.this) :
  sdk_calls (emitted (invoke m p)) = [].
Proof.
  destruct m; try reflexivity.
  cbn [invoke]. unfold Provider.codeVerifier. cbn.
  destruct (verifier p) as [v|]; [destruct v|]; reflexivity.
Qed.

Lemma run_sdk_console_only {R} (script : sdk R) :
  forall p, sdk_calls (emitted (run_sdk script p)) = [].
Proof.
  induction script as [r|e|A m k IH]; intros p; try reflexivity.
  cbn [run_sdk]. unfold prog_bind, settle. cbn.
  unfold sdk_calls in *. rewrite filter_app, invoke_console_only, IH.
  reflexivity.
Qed.

End Runs.

(** ** [createMcpClient] *)

(** [createMcpClient] runs [client.connect(transport)] on the
    existing provider, or on one it constructs from the request's
    protocol and host when there is none, and ends as that call ends:
    it returns the client when the call resolves and rejects with the
    very same error when the call rejects, after one line on the
    console. Either way [oauthProvider] then refers to the provider as
    the SDK left it. *)
Lemma createMcpClient_run (client : Client) (transport : SSEClientTransport)
        (c : Request) (g : Globals) :
  let r := run_sdk (connect client transport) (provider_for c g) in
  createMcpClient client transport c g =
  mkResult
    (match res r with
     | Returned _ => Returned client
     | Threw error => Threw error
     end)
    {| oauthProvider := Some (final r) |}
    (SdkConnect :: emitted r ++
     [match res r with
      | Returned _ => ConsoleLog [LogString "Connected to Sentry MCP server"]
      | Threw error =>
          ConsoleError [LogString "Failed to connect to MCP server:";
                        LogThrown error]
      end]).
Proof.
  cbv zeta. unfold createMcpClient, provider_for.
  cbn. unfold prog_bind, prog_catch. cbn.
  destruct (oauthProvider g) as [p|] eqn:Hg; cbn.
  - unfold on_authProvider. rewrite Hg. cbn.
    destruct (res (run_sdk (connect client transport) p)) eqn:Hr; cbn;
      rewrite ?Hr; cbn; rewrite ?app_nil_r; reflexivity.
  - unfold on_authProvider. cbn.
    destruct (res (run_sdk (connect client transport) _)) eqn:Hr; cbn;
      rewrite ?Hr; cbn; rewrite ?app_nil_r; reflexivity.
Qed.

Section ApiConnectRuns.

Variables (client : Client) (transport : SSEClientTransport).
Variables (c : Request) (g : Globals).

Let r1 := run_sdk (connect client transport) (provider_for c g).
Let r2 := run_sdk (listTools client) (final r1).
Let r3 := run_sdk (close client) (final r2).

(** The [try] block of [POST /api/connect], script by script. *)
Lemma api_connect_try_run :
  api_connect_try client transport c g =
  match res r1 with
  | Threw error =>
      mkResult (Threw error) {| oauthProvider := Some (final r1) |}
        (SdkConnect :: emitted r1 ++
         [ConsoleError [LogString "Failed to connect to MCP server:";
                        LogThrown error]])
  | Returned _ =>
      match res r2 with
      | Threw error =>
          mkResult (Threw error) {| oauthProvider := Some (final r2) |}
            ((SdkConnect :: emitted r1 ++
              [ConsoleLog [LogString "Connected to Sentry MCP server"]]) ++
             SdkListTools :: emitted r2)
      | Returned listed =>
          mkResult
            (match res r3 with
             | Returned _ => Returned (success_response (tools listed))
             | Threw error => Threw error
             end)
            {| oauthProvider := Some (final r3) |}
            ((SdkConnect :: emitted r1 ++
              [ConsoleLog [LogString "Connected to Sentry MCP server"]]) ++
             (SdkListTools :: emitted r2) ++
             ConsoleLog [LogString "Available tools:"; LogTools (tools listed)] ::
             SdkClose :: emitted r3)
      end
  end.
Proof.
  unfold api_connect_try. cbn [bind Monad_prog].
  rewrite (prog_bind_run _ _ _ _ (createMcpClient_run client transport c g)).
  fold r1. cbn [res final emitted].
  destruct (res r1) as [u|error] eqn:H1; [|reflexivity].
  rewrite (prog_bind_run _ _ _ _
             (await_run SdkListTools (listTools client)
                {| oauthProvider := Some (final r1) |} (final r1) eq_refl)).
  fold r2. cbn [res final emitted].
  destruct (res r2) as [listed|error] eqn:H2; [|reflexivity].
  rewrite (prog_bind_run _ _ _ _ eq_refl).
  cbn [console_log emit res final emitted].
  rewrite (prog_bind_run _ _ _ _
             (await_run SdkClose (close client)
                {| oauthProvider := Some (final r2) |} (final r2) eq_refl)).
  fold r3. cbn [res final emitted].
  destruct (res r3) as [u'|error] eqn:H3; cbn; rewrite ?app_nil_r; reflexivity.
Qed.

End ApiConnectRuns.

Lemma api_connect_catch_run (error : thrown) (w : Globals) :
  api_connect_catch error w =
  mkResult
    (Returned
       (if is_redirect_signal error
        then redirect_response
               (JsString.trim (JsString.substring 12 (message_of error)))
        else error_response (message_of error)))
    w
    [ConsoleError [LogString "Connection error:"; LogThrown error]].
Proof.
  unfold api_connect_catch. cbn [bind Monad_prog].
  rewrite (prog_bind_run _ _ _ _ eq_refl).
  cbn [console_error emit res final emitted].
  destruct error as [message|v]; cbn [is_redirect_signal message_of];
    [|reflexivity].
  destruct (JsString.startsWith "Redirect to:" message); reflexivity.
Qed.

Lemma sdk_calls_app (es1 es2 : list event) :
  sdk_calls (es1 ++ es2) = (sdk_calls es1 ++ sdk_calls es2)%list.
Proof. apply filter_app. Qed.

Lemma sdk_calls_cons (e : event) (es : list event) :
  sdk_calls (e :: es) = if is_sdk_call e then e :: sdk_calls es else sdk_calls es.
Proof. reflexivity. Qed.

Ltac count_sdk_calls :=
  repeat (rewrite ?sdk_calls_app, ?sdk_calls_cons, ?run_sdk_console_only;
          cbn [is_sdk_call app]);
  try reflexivity.

(** X4. [createMcpClient] ends as [client.connect(transport)] ends: it
    returns the client when the call resolves and rejects with the very
    same error when it rejects. The call is made on the existing
    provider, or on one constructed from the request's protocol and
    host when there is none; afterwards [oauthProvider] refers to that
    provider as the SDK left it, and [connect] is the only call made
    into the SDK. *)
Theorem createMcpClient_propagates (client : Client)
        (transport : SSEClientTransport) (c : Request) (g : Globals) :
  let r := run_sdk (connect client transport) (provider_for c g) in
  let created := createMcpClient client transport c g in
  res created =
    match res r with
    | Returned _ => Returned client
    | Threw error => Threw error
    end /\
  final created = {| oauthProvider := Some (final r) |} /\
  sdk_calls (emitted created) = [SdkConnect].
Proof.
  cbv zeta. rewrite createMcpClient_run. cbn [res final emitted].
  split; [reflexivity | split; [reflexivity|]].
  destruct (res (run_sdk (connect client transport) (provider_for c g)));
    count_sdk_calls.
Qed.

(** X5. [POST /api/connect] calls the SDK in the order [connect],
    [listTools], [close] and stops at the first call that rejects: when
    [connect] rejects nothing else is called, and when [listTools]
    rejects the client is not closed. *)
Theorem api_connect_call_order (client : Client)
        (transport : SSEClientTransport) (c : Request) (g : Globals) :
  let r1 := run_sdk (connect client transport) (provider_for c g) in
  let r2 := run_sdk (listTools client) (final r1) in
  sdk_calls (emitted (api_connect client transport c g)) =
  match res r1 with
  | Threw _ => [SdkConnect]
  | Returned _ =>
      match res r2 with
      | Threw _ => [SdkConnect; SdkListTools]
      | Returned _ => [SdkConnect; SdkListTools; SdkClose]
      end
  end.
Proof.
  cbv zeta. unfold api_connect. cbn [catch Exc_prog]. unfold prog_catch.
  rewrite api_connect_try_run.
  destruct (res (run_sdk (connect client transport) (provider_for c g)));
    cbn [res final emitted].
  - destruct (res (run_sdk (listTools client) _)); cbn [res final emitted].
    + destruct (res (run_sdk (close client) _)); cbn [res final emitted];
        rewrite ?api_connect_catch_run; cbn [emitted]; count_sdk_calls.
    + rewrite api_connect_catch_run. cbn [emitted]. count_sdk_calls.
  - rewrite api_connect_catch_run. cbn [emitted]. count_sdk_calls.
Qed.

Lemma api_connect_final (client : Client)
      (transport : SSEClientTransport) (c : Request) (g : Globals) :
  let r1 := run_sdk (connect client transport) (provider_for c g) in
  let r2 := run_sdk (listTools client) (final r1) in
  let r3 := run_sdk (close client) (final r2) in
  final (api_connect client transport c g) =
  {| oauthProvider :=
       Some match res r1 with
            | Threw _ => final r1
            | Returned _ =>
                match res r2 with
                | Threw _ => final r2
                | Returned _ => final r3
                end
            end |}.
Proof.
  cbv zeta. unfold api_connect. cbn [catch Exc_prog]. unfold prog_catch.
  rewrite api_connect_try_run.
  destruct (res (run_sdk (connect client transport) (provider_for c g)));
    cbn [res final emitted].
  - destruct (res (run_sdk (listTools client) _)); cbn [res final emitted].
    + destruct (res (run_sdk (close client) _)); cbn [res final emitted];
        rewrite ?api_connect_catch_run; reflexivity.
    + rewrite api_connect_catch_run. reflexivity.
  - rewrite api_connect_catch_run. reflexivity.
Qed.

(** X6. Whatever [POST /api/connect] answers, [oauthProvider] then
    refers to the provider as the last SDK call that ran left it:
    nothing the SDK saved during a failed attempt, such as the code
    verifier saved before a redirect, is rolled back. *)
Theorem api_connect_keeps_sdk_state (client : Client)
        (transport : SSEClientTransport) (c : Request) (g : Globals) :
  let r1 := run_sdk (connect client transport) (provider_for c g) in
  let r2 := run_sdk (listTools client) (final r1) in
  let r3 := run_sdk (close client) (final r2) in
  final (api_connect client transport c g) =
  {| oauthProvider :=
       Some match res r1 with
            | Threw _ => final r1
            | Returned _ =>
                match res r2 with
                | Threw _ => final r2
                | Returned _ => final r3
                end
            end |}.
Proof. exact (api_connect_final client transport c g). Qed.

(** ** [GET /oauth/callback] with a provider *)

Lemma oauth_callback_run (client : Client) (transport : SSEClientTransport)
      (c : Request) (g : Globals) (p : Provider.this) (code : string) :
  oauthProvider g = Some p ->
  query "code" (url_query c) = Some code ->
  JsString.falsy code = false ->
  let r1 := run_sdk (finishAuth transport code) p in
  let r2 := run_sdk (connect client transport) (final r1) in
  oauth_callback client transport c g =
  match res r1 with
  | Threw error =>
      mkResult (Returned (c_html (failure_page (message_of error))))
        {| oauthProvider := Some (final r1) |}
        ((SdkFinishAuth code :: emitted r1) ++
         [ConsoleError [LogString "OAuth callback error:"; LogThrown error]])
  | Returned _ =>
      match res r2 with
      | Threw error =>
          mkResult (Returned (c_html (failure_page (message_of error))))
            {| oauthProvider := Some (final r2) |}
            (((SdkFinishAuth code :: emitted r1) ++ SdkConnect :: emitted r2) ++
             [ConsoleError [LogString "OAuth callback error:"; LogThrown error]])
      | Returned _ =>
          mkResult (Returned (c_html success_page))
            {| oauthProvider := Some (final r2) |}
            ((SdkFinishAuth code :: emitted r1) ++ SdkConnect :: emitted r2)
      end
  end.
Proof.
  intros Hg Hq Hcode r1 r2.
  rewrite oauth_callback_second_check_dead. unfold oauth_callback_one_check.
  rewrite Hq, Hcode. cbn [catch Exc_prog bind Monad_prog]. unfold prog_catch.
  rewrite (prog_bind_run _ _ _ _ eq_refl). cbn [get_state res final emitted].
  rewrite Hg.
  rewrite (prog_bind_run _ _ _ _ eq_refl).
  cbn [ret Monad_prog prog_ret res final emitted app].
  rewrite (prog_bind_run _ _ _ _
             (await_run (SdkFinishAuth code) (finishAuth transport code) g p Hg)).
  fold r1. cbn [res final emitted].
  destruct (res r1) as [u|error] eqn:H1; cbn [res final emitted].
  - rewrite (prog_bind_run _ _ _ _
               (await_run SdkConnect (connect client transport)
                  {| oauthProvider := Some (final r1) |} (final r1) eq_refl)).
    fold r2. cbn [res final emitted].
    destruct (res r2) as [u'|error] eqn:H2; cbn [res final emitted].
    + cbn. now rewrite app_nil_r.
    + reflexivity.
  - reflexivity.
Qed.

(** X7. With a provider in place and a non-empty [code], the callback
    first calls [transport.finishAuth] with exactly that code and calls
    [client.connect] only when that resolved. It answers with the
    success page when both resolve, and otherwise with the failure page
    for the first error. *)
Theorem oauth_callback_exchange_then_connect (client : Client)
        (transport : SSEClientTransport) (c : Request) (g : Globals)
        (p : Provider.this) (code : string) :
  oauthProvider g = Some p ->
  query "code" (url_query c) = Some code ->
  JsString.falsy code = false ->
  let r1 := run_sdk (finishAuth transport code) p in
  let r2 := run_sdk (connect client transport) (final r1) in
  let answered := oauth_callback client transport c g in
  res answered =
    Returned
      (c_html
         match res r1 with
         | Threw error => failure_page (message_of error)
         | Returned _ =>
             match res r2 with
             | Threw error => failure_page (message_of error)
             | Returned _ => success_page
             end
         end) /\
  sdk_calls (emitted answered) =
    match res r1 with
    | Threw _ => [SdkFinishAuth code]
    | Returned _ => [SdkFinishAuth code; SdkConnect]
    end.
Proof.
  intros Hg Hq Hcode r1 r2 answered. subst answered.
  rewrite (oauth_callback_run client transport c g p code Hg Hq Hcode).
  fold r1 r2.
  destruct (res r1); [destruct (res r2)|]; cbn [res emitted];
    (split; [reflexivity|]); subst r1 r2; count_sdk_calls.
Qed.

Lemma oauth_callback_exchange_then_connect_witness :
  res (oauth_callback Sample.client Sample.transport
         (Sample.callback_request [("code", "abc123")])
         {| oauthProvider := Some (Provider.new "https://client.example") |}) =
  Returned (c_html (failure_page "No code verifier found")).
Proof.
  refine (proj1 (oauth_callback_exchange_then_connect
                   Sample.client Sample.transport
                   (Sample.callback_request [("code", "abc123")])
                   {| oauthProvider := Some (Provider.new "https://client.example") |}
                   (Provider.new "https://client.example") "abc123" _ _ _));
    reflexivity.
Defined.

(** X8. The callback handler never rejects and never answers with
    anything but an HTML page with status 200, failures included: the
    page is the no-code page, the success page, or the failure page
    for some error. *)
Theorem oauth_callback_always_page (client : Client)
        (transport : SSEClientTransport) (c : Request) (g : Globals) :
  exists page,
    res (oauth_callback client transport c g) =
      Returned {| status := 200%Z; body := HtmlBody page |} /\
    (page = no_code_page \/
     page = success_page \/
     exists error, page = failure_page (message_of error)).
Proof.
  destruct (query "code" (url_query c)) as [code|] eqn:Hq.
  - destruct (JsString.falsy code) eqn:Hcode.
    + exists no_code_page. split; [|now left].
      unfold oauth_callback. now rewrite Hq, Hcode.
    + destruct (oauthProvider g) as [p|] eqn:Hg.
      * rewrite (oauth_callback_run client transport c g p code Hg Hq Hcode).
        destruct (res (run_sdk (finishAuth transport code) p)) as [u|error].
        -- destruct (res (run_sdk (connect client transport) _)) as [u'|error].
           ++ exists success_page. split; [reflexivity|]. right. now left.
           ++ eexists. split; [reflexivity|]. right. right. now exists error.
        -- eexists. split; [reflexivity|]. right. right. now exists error.
      * rewrite (oauth_callback_without_provider client transport c g code Hg Hq Hcode).
        eexists. split; [reflexivity|]. right. right.
        now exists (JsError "OAuth provider not initialized").
  - exists no_code_page. split; [|now left].
    unfold oauth_callback. now rewrite Hq.
Qed.

(** ** What requests keep true of the provider *)

Section Preserved.

(** A property of the provider that no method call breaks. *)
Variable P : Provider.this -> Prop.
Hypothesis invoke_keeps :
  forall A (m : method A) p, P p -> P (final (invoke m p)).

Lemma run_sdk_keeps {R} (script : sdk R) :
  forall p, P p -> P (final (run_sdk script p)).
Proof.
  induction script as [r|e|A m k IH]; intros p Hp; try exact Hp.
  cbn [run_sdk]. unfold prog_bind, settle. cbn.
  apply IH, invoke_keeps, Hp.
Qed.

Lemma api_connect_keeps (client : Client) (transport : SSEClientTransport)
      (c : Request) (g : Globals) :
  P (provider_for c g) ->
  exists p', oauthProvider (final (api_connect client transport c g)) = Some p' /\
             P p'.
Proof.
  intros Hp. rewrite api_connect_final. cbn [oauthProvider].
  eexists. split; [reflexivity|].
  destruct (res (run_sdk (connect client transport) _));
    [destruct (res (run_sdk (listTools client) _))|];
    repeat apply run_sdk_keeps; exact Hp.
Qed.

Lemma oauth_callback_keeps (client : Client) (transport : SSEClientTransport)
      (c : Request) (g : Globals) (p : Provider.this) :
  oauthProvider g = Some p -> P p ->
  exists p', oauthProvider (final (oauth_callback client transport c g)) = Some p' /\
             P p'.
Proof.
  intros Hg Hp.
  destruct (query "code" (url_query c)) as [code|] eqn:Hq.
  - destruct (JsString.falsy code) eqn:Hcode.
    + exists p. unfold oauth_callback. rewrite Hq, Hcode. now split.
    + rewrite (oauth_callback_run client transport c g p code Hg Hq Hcode).
      destruct (res (run_sdk (finishAuth transport code) p));
        [destruct (res (run_sdk (connect client transport) _))|];
        cbn [final oauthProvider]; eexists; (split; [reflexivity|]);
        repeat apply run_sdk_keeps; exact Hp.
  - exists p. unfold oauth_callback. rewrite Hq. now split.
Qed.

Lemma serve_keeps (history : list incoming) :
  forall g p, oauthProvider g = Some p -> P p ->
  exists p', oauthProvider (serve history g) = Some p' /\ P p'.
Proof.
  induction history as [|i rest IH]; intros g p Hg Hp; [now exists p|].
  cbn [serve]. unfold handle.
  destruct (to i).
  - destruct (oauth_callback_keeps (its_client i) (its_transport i)
                (request i) g p Hg Hp) as (p' & Hg' & Hp').
    exact (IH _ p' Hg' Hp').
  - destruct (api_connect_keeps (its_client i) (its_transport i)
                (request i) g) as (p' & Hg' & Hp').
    + unfold provider_for. now rewrite Hg.
    + exact (IH _ p' Hg' Hp').
Qed.

End Preserved.

(** X9. The provider object is constructed once, by the first
    [POST /api/connect] of the process, with that request's protocol
    and host as base URL; no later request, whatever its host and
    whatever the SDK does, replaces it or changes its base URL. Before
    that request there is no provider. *)
Theorem provider_constructed_once (history : list incoming) :
  option_map baseUrl (oauthProvider (serve history initial)) =
  option_map base_url_of (first_connect history).
Proof.
  assert (Hfrom : forall g, oauthProvider g = None ->
            option_map baseUrl (oauthProvider (serve history g)) =
            option_map base_url_of (first_connect history)).
  { induction history as [|i rest IH]; intros g Hg;
      [cbn [serve first_connect]; now rewrite Hg|].
    cbn [serve first_connect]. unfold handle.
    destruct (to i).
    - apply IH. now apply oauth_callback_provider_defined.
    - destruct (api_connect_keeps
                  (fun p => baseUrl p = base_url_of (request i))
                  (fun A m p Hp => eq_trans (invoke_baseUrl m p) Hp)
                  (its_client i) (its_transport i) (request i) g)
        as (p' & Hg' & Hp').
      + unfold provider_for. now rewrite Hg.
      + destruct (serve_keeps
                    (fun p => baseUrl p = base_url_of (request i))
                    (fun A m p Hp => eq_trans (invoke_baseUrl m p) Hp)
                    rest _ p' Hg' Hp') as (p'' & Hg'' & Hp'').
        rewrite Hg''. cbn. now rewrite Hp''. }
  now apply Hfrom.
Qed.




(** ** The redirect target *)

Section Trim.

Import JsString.

Lemma trimEnd_idempotent (s : string) : trimEnd (trimEnd s) = trimEnd s.
Proof.
  induction s as [|ch s IH]; [reflexivity|].
  cbn [trimEnd]. destruct (trimEnd s) as [|d t] eqn:Hs.
  - destruct (isWhiteSpace ch) eqn:Hws; [reflexivity|].
    cbn [trimEnd]. now rewrite Hws.
  - cbn [trimEnd]. cbn [trimEnd] in IH. rewrite IH. reflexivity.
Qed.

(** [trimEnd] keeps a first character that is not white space. *)
Lemma trimEnd_head (ch : ascii) (s : string) :
  isWhiteSpace ch = false -> exists t, trimEnd (String ch s) = String ch t.
Proof.
  intros Hws. cbn [trimEnd]. destruct (trimEnd s) as [|d t].
  - rewrite Hws. now exists EmptyString.
  - now exists (String d t).
Qed.

Lemma trimStart_head (s : string) :
  trimStart s = EmptyString \/
  exists ch t, trimStart s = String ch t /\ isWhiteSpace ch = false.
Proof.
  induction s as [|ch s IH]; [now left|].
  cbn [trimStart]. destruct (isWhiteSpace ch) eqn:Hws; [exact IH|].
  right. now exists ch, s.
Qed.

Lemma trim_idempotent (s : string) : trim (trim s) = trim s.
Proof.
  unfold trim. destruct (trimStart_head s) as [H|(ch & t & H & Hws)]; rewrite H.
  - reflexivity.
  - destruct (trimEnd_head ch t Hws) as [t' Ht'].
    assert (Hfix : trimStart (trimEnd (String ch t)) = trimEnd (String ch t)).
    { rewrite Ht'. cbn [trimStart]. now rewrite Hws. }
    rewrite Hfix. apply trimEnd_idempotent.
Qed.

End Trim.

(** X11. A [redirect] field in the answer of [POST /api/connect] never
    has white space at either end: trimming it changes nothing. *)
Theorem api_connect_redirect_trimmed (client : Client)
        (transport : SSEClientTransport) (c : Request) (g : Globals)
        (target : string) :
  res (api_connect client transport c g) = Returned (redirect_response target) ->
  JsString.trim target = target.
Proof.
  rewrite api_connect_res.
  destruct (res (api_connect_try client transport c g)) as [resp|error] eqn:Htry.
  - destruct (api_connect_try_returned client transport c g resp Htry) as [ts ->].
    discriminate.
  - destruct (is_redirect_signal error); [|discriminate].
    intros [= <-]. apply trim_idempotent.
Qed.

Lemma api_connect_redirect_trimmed_witness :
  JsString.trim (URL_toString Sample.authorize) = URL_toString Sample.authorize.
Proof.
  apply (api_connect_redirect_trimmed Sample.client Sample.transport
           Sample.connect_request initial).
  reflexivity.
Defined.

(** X13. A failure of the [try] block of [POST /api/connect] that is
    not taken for the redirect signal is answered with status 500 and
    the single field [error]: the error's own message, unchanged, for
    an [Error], and [Unknown error] for any other thrown value, a
    thrown string that starts with [Redirect to:] included. *)
Theorem api_connect_error_passthrough (client : Client)
        (transport : SSEClientTransport) (c : Request) (g : Globals)
        (error : thrown) :
  res (api_connect_try client transport c g) = Threw error ->
  is_redirect_signal error = false ->
  res (api_connect client transport c g) =
  Returned
    {| status := 500%Z;
       body := JsonBody
                 (JObject [("error",
                            JString match error with
                                    | JsError message => message
                                    | NonError _ => "Unknown error"
                                    end)]) |}.
Proof.
  intros Htry Hsig. rewrite api_connect_res, Htry, Hsig.
  destruct error; reflexivity.
Qed.

Lemma api_connect_error_passthrough_witness :
  res (api_connect Failing.string_throwing_client Sample.transport
         Sample.connect_request initial) =
  Returned (error_response "Unknown error").
Proof.
  apply (api_connect_error_passthrough Failing.string_throwing_client
           Sample.transport Sample.connect_request initial
           (NonError (JString "Redirect to: https://idp.example/")));
    reflexivity.
Defined.

Example refused_connection :
  handle {| to := POST_api_connect; request := Sample.connect_request;
            its_client := Failing.refused_client;
            its_transport := Sample.transport |} initial =
  mkResult
    (Returned (error_response "connect ECONNREFUSED"))
    {| oauthProvider := Some (Provider.new "https://client.example") |}
    [SdkConnect;
     ConsoleError [LogString "Failed to connect to MCP server:";
                   LogThrown (JsError "connect ECONNREFUSED")];
     ConsoleError [LogString "Connection error:";
                   LogThrown (JsError "connect ECONNREFUSED")]].
Proof. reflexivity. Qed.
